(** * ContextMAN core API: a shallow embedding of [server/main.py] and
    [server/run.py], with the properties of its three HTTP handlers and of
    its start-up sequence.

    The handlers are thin glue around two external collaborators (the
    browsing agent and the chat-completion client).  Both are modelled as
    oracles that either return a value or raise; the handlers themselves
    run in a small state-and-exception monad whose state is the trace of
    observable effects (lines printed, delegate calls made). *)

From Stdlib Require Import QArith.
From stdpp Require Import base strings list gmap pretty.

Local Open Scope string_scope.
Local Open Scope Z_scope.
Local Open Scope list_scope.

(** String concatenation computes under [simpl] in this file. *)
#[local] Arguments String.append !_ _ / : simpl nomatch.

(* ===================================================================== *)
(** ** Strings *)

(** The line feed of Python's ["\n"]. *)
Definition nl : string := String (Ascii.ascii_of_nat 10) EmptyString.

(** An f-string or an implicit concatenation of adjacent literals: the
    pieces, already converted with [str], joined left to right. *)
Fixpoint fstring (parts : list string) : string :=
  match parts with
  | [] => EmptyString
  | p :: ps => p +:+ fstring ps
  end.

(** [starts_with p s]: Python's [s.startswith(p)]. *)
Fixpoint starts_with (p s : string) : bool :=
  match p, s with
  | EmptyString, _ => true
  | String a p', String b s' => if Ascii.eqb a b then starts_with p' s' else false
  | String _ _, EmptyString => false
  end.

(** [contains t s]: Python's [t in s] on strings. *)
Fixpoint contains (t s : string) : bool :=
  starts_with t s ||
  match s with
  | EmptyString => false
  | String _ s' => contains t s'
  end.

(** Propositional counterparts, used in the statements. *)
Definition Prefix (p s : string) : Prop := exists r, s = p +:+ r.
Definition Infix (t s : string) : Prop := exists l r, s = l +:+ t +:+ r.

(** [s.split("\n")], accumulating the current line in reverse. *)
Fixpoint split_lines_acc (acc : string) (s : string) : list string :=
  match s with
  | EmptyString => [String.rev acc]
  | String c s' =>
      if Ascii.eqb c (Ascii.ascii_of_nat 10)
      then String.rev acc :: split_lines_acc EmptyString s'
      else split_lines_acc (String c acc) s'
  end.

Definition split_lines (s : string) : list string := split_lines_acc EmptyString s.

(* ===================================================================== *)
(** ** Python values and truthiness *)

(** The values a delegate can hand back and a JSON body can carry.  An
    object of any other class (a container, an agent history) is [VObj],
    with the truth value its [__bool__]/[__len__] gives it. *)
Inductive pyval : Type :=
| VNone
| VBool (b : bool)
| VInt (n : Z)
| VStr (s : string)
| VObj (cls : string) (truth : bool).

(** Python's truth test, as used by [if not result] and
    [if request.user_code]. *)
Definition truthy (v : pyval) : bool :=
  match v with
  | VNone => false
  | VBool b => b
  | VInt n => negb (n =? 0)
  | VStr s => negb (String.eqb s EmptyString)
  | VObj _ t => t
  end.

(** [str | None] fields. *)
Definition of_optional (o : option string) : pyval :=
  match o with
  | None => VNone
  | Some s => VStr s
  end.

(** [str(x)] on such a field, as an f-string applies it. *)
Definition str_optional (o : option string) : string :=
  match o with
  | None => "None"
  | Some s => s
  end.

(** A JSON object, keys in insertion order. *)
Definition json := list (string * pyval).

(* ===================================================================== *)
(** ** Exceptions *)

(** Exceptions by class.  [HTTPException] is FastAPI's; [BaseOnly] stands
    for the classes that derive from [BaseException] but not from
    [Exception] ([KeyboardInterrupt], [SystemExit],
    [asyncio.CancelledError]); [OtherException] is any other subclass of
    [Exception], with its message. *)
Inductive exn : Type :=
| HTTPException (status_code : Z) (detail : string)
| ValueError (msg : string)
| IndexError (msg : string)
| OtherException (cls msg : string)
| BaseOnly (cls msg : string).

(** [isinstance(e, Exception)]: what an [except Exception] clause tests. *)
Definition isinstance_Exception (e : exn) : bool :=
  match e with
  | BaseOnly _ _ => false
  | _ => true
  end.

(** Starlette's [HTTPException.__str__]: status code, colon, detail. *)
Definition starlette_str (status_code : Z) (detail : string) : string :=
  pretty status_code +:+ ": " +:+ detail.

(* ===================================================================== *)
(** ** Requests, delegate interfaces *)

Inductive url_scheme := http | https.

(** A validated [pydantic.HttpUrl]: scheme and host are mandatory, the
    remainder (port, path, query, fragment) is kept as text. *)
Record HttpUrl := {
  scheme : url_scheme;
  host : string;
  rest : string
}.

Definition str_url (u : HttpUrl) : string :=
  (match scheme u with http => "http" | https => "https" end)
    +:+ "://" +:+ host u +:+ rest u.

Record ParseRequest := { url : HttpUrl }.

Record SynthesizeRequest := {
  purpose : string;
  parsed_context : string;
  user_code : option string
}.

(** [ChatGroq(model=..., api_key=..., temperature=...)]. *)
Record ChatGroq := {
  llm_model : string;
  llm_api_key : string;
  llm_temperature : Q
}.

(** [Agent(task=..., llm=...)]. *)
Record Agent := {
  task : string;
  llm : ChatGroq
}.

Inductive role := system | user.

Record message := {
  msg_role : role;
  content : string
}.

(** The keyword arguments of [client.chat.completions.create]. *)
Record chat_request := {
  model : string;
  messages : list message;
  temperature : Q
}.

(** The part of a completion object the handler reads:
    [response.choices[i].message.content], a [str | None]. *)
Record choice := { message_content : option string }.
Record ChatCompletion := { choices : list choice }.

(* ===================================================================== *)
(** ** The handler monad *)

Inductive outcome (A : Type) : Type :=
| Return (a : A)
| Raise (e : exn).
Arguments Return {A} a.
Arguments Raise {A} e.

(** Observable effects, oldest first. *)
Inductive event : Type :=
| Print (line : string)
| AgentRun (a : Agent)
| ChatCreate (r : chat_request)
| SetEventLoopPolicy
| CreateApp (title version : string)
| CreateClient (api_key : string)
| Listen (host : string) (port : Z).

Definition M (A : Type) : Type := list event -> outcome A * list event.

Definition ret {A} (a : A) : M A := fun t => (Return a, t).

Definition raise {A} (e : exn) : M A := fun t => (Raise e, t).

Definition bind {A B} (m : M A) (k : A -> M B) : M B :=
  fun t =>
    match m t with
    | (Return a, t') => k a t'
    | (Raise e, t') => (Raise e, t')
    end.

Notation "x <- m ;; k" := (bind m (fun x => k))
  (at level 100, m at next level, right associativity).
Notation "m ;;; k" := (bind m (fun _ => k))
  (at level 100, right associativity).

Definition print (line : string) : M unit :=
  fun t => (Return tt, t ++ [Print line]).

Definition emit (e : event) : M unit :=
  fun t => (Return tt, t ++ [e]).

(** [try: body / except Exception as e: handler e].  An exception that is
    not an instance of [Exception] is not caught. *)
Definition try_except_Exception {A} (body : M A) (handler : exn -> M A) : M A :=
  fun t =>
    match body t with
    | (Return a, t') => (Return a, t')
    | (Raise e, t') =>
        if isinstance_Exception e then handler e t' else (Raise e, t')
    end.

(** The two external collaborators.  Each call either returns or raises. *)
Record externals := {
  agent_run : Agent -> outcome pyval;
  chat_completions_create : chat_request -> outcome ChatCompletion
}.

(** [l[i]] on a Python list, raising [IndexError] out of range. *)
Definition subscript {A} (l : list A) (i : nat) : M A :=
  match l !! i with
  | Some a => ret a
  | None => raise (IndexError "list index out of range")
  end.

(* ===================================================================== *)
(** ** The service: [server/main.py] *)

Definition MODEL_NAME : string := "mixtral-8x7b-32768".

(** The fixed system instruction of [/synthesize], line by line. *)
Definition system_prompt : string := fstring [
    "You are an expert AI assistant named ContextMAN. Your job is to take a user's goal, a messy block of context (like a chat history), and optional user-provided code, and synthesize them into a single, perfectly structured, portable prompt that can be used with any advanced AI model."; nl;
    nl;
    "Follow these rules precisely:"; nl;
    "1.  Start with a clear heading `### CONTEXT BRIEF ###`."; nl;
    "2.  State the user's ultimate goal clearly under a `**Goal:**` heading."; nl;
    "3.  Include a `**Key Information from Context:**` section where you concisely summarize the most important findings and takeaways from the provided chat history."; nl;
    "4.  If the user provided their own code, include it under a `**User-Provided Code:**` section, inside a proper markdown code block. If no code is provided, state 'N/A'."; nl;
    "5.  Finally, create a `---` separator and provide a `**Suggested Prompt:**` that clearly and directly tells the next AI what to do based on all the assembled context. This prompt should be ready to be copy-pasted."; nl
  ].

(** The instruction handed to the browsing agent. *)
Definition parsing_task (request : ParseRequest) : string := fstring [
    "You are a web scraping assistant. Your ONLY job is to extract text from the provided URL: ";
    str_url (url request); ". ";
    "DO NOT navigate to any other URLs. DO NOT use search. ";
    "Your primary goal is to extract the full user-assistant conversation from the page. ";
    "Identify each turn of the conversation clearly, separating user and assistant roles. ";
    "If there are code blocks within the conversation, ensure they are included and properly formatted using markdown code fences (```). ";
    "If the page does not contain a conversation, return the main text content of the page. ";
    "Return only the final extracted text as a single string."
  ].

(** Line 119: a fenced block around the code when [request.user_code] is
    truthy, the text [N/A] otherwise. *)
Definition user_code_section (request : SynthesizeRequest) : string :=
  if truthy (of_optional (user_code request))
  then fstring ["```"; nl; str_optional (user_code request); nl; "```"]
  else "N/A".

Definition user_message (request : SynthesizeRequest) : string := fstring [
    "Here is the information to synthesize:"; nl;
    nl;
    "**User's Goal:**"; nl;
    purpose request; nl;
    nl;
    "**Messy Context / Chat History:**"; nl;
    parsed_context request; nl;
    nl;
    "**User's Code (if any):**"; nl;
    user_code_section request; nl
  ].

Definition synthesis_request (request : SynthesizeRequest) : chat_request :=
  {| model := MODEL_NAME;
     messages := [ {| msg_role := system; content := system_prompt |};
                   {| msg_role := user; content := user_message request |} ];
     temperature := (5 # 10)%Q |}.

Definition empty_result_detail : string :=
  "The browser agent failed to extract content. Check server logs.".

Section Service.

(** Process-wide configuration, fixed at start-up. *)
Variable GROQ_API_KEY : string.

(** [str(e)] on an [HTTPException] is Starlette's business; every
    result below holds whatever it prints. *)
Variable str_HTTPException : Z -> string -> string.

(** The external collaborators answering this request. *)
Variable ext : externals.

(** Python's [str(e)]. *)
Definition py_str (e : exn) : string :=
  match e with
  | HTTPException c d => str_HTTPException c d
  | ValueError m | IndexError m | OtherException _ m | BaseOnly _ m => m
  end.

Definition await_agent_run (a : Agent) : M pyval :=
  fun t => (agent_run ext a, t ++ [AgentRun a]).

Definition await_chat_create (r : chat_request) : M ChatCompletion :=
  fun t => (chat_completions_create ext r, t ++ [ChatCreate r]).

(** [GET /ping]. *)
Definition read_root : M json :=
  ret [ ("status", VStr "ok");
        ("message",
         VStr (fstring ["ContextMAN server is running on Groq with model: ";
                        MODEL_NAME])) ].

Definition parse_agent (request : ParseRequest) : Agent :=
  {| task := parsing_task request;
     llm := {| llm_model := MODEL_NAME;
               llm_api_key := GROQ_API_KEY;
               llm_temperature := 0%Q |} |}.

(** [POST /parse]. *)
Definition parse_url (request : ParseRequest) : M json :=
  print (fstring ["Received request to parse URL: "; str_url (url request)]) ;;;
  try_except_Exception
    (result <- await_agent_run (parse_agent request) ;;
     if negb (truthy result) then
       print "ERROR: Agent failed to produce a result or returned empty." ;;;
       raise (HTTPException 500 empty_result_detail)
     else
       print "Parsing successful." ;;;
       ret [ ("parsed_content", result) ])
    (fun e =>
       print (fstring ["An unexpected error occurred during parsing: "; py_str e]) ;;;
       raise (HTTPException 500 (fstring ["Failed to parse URL: "; py_str e]))).

(** [POST /synthesize]. *)
Definition synthesize_context (request : SynthesizeRequest) : M json :=
  print (fstring ["Received request to synthesize for purpose: "; purpose request]) ;;;
  try_except_Exception
    (response <- await_chat_create (synthesis_request request) ;;
     first <- subscript (choices response) 0 ;;
     let final_prompt := of_optional (message_content first) in
     print "Synthesis successful." ;;;
     ret [ ("synthesized_prompt", final_prompt) ])
    (fun e =>
       print (fstring ["An unexpected error occurred during synthesis: "; py_str e]) ;;;
       raise (HTTPException 500 (fstring ["Failed to synthesize context: "; py_str e]))).

End Service.

(* ===================================================================== *)
(** ** Start-up: module initialisation and [server/run.py] *)

Definition missing_key_message : string :=
  "GROQ_API_KEY environment variable not set. Please create a .env file.".

Section Startup.

(** [load_dotenv()]: python-dotenv's update of [os.environ] from a
    [.env] file, whatever that file holds. *)
Variable load_dotenv : gmap string string -> gmap string string.

(** Importing [main]: lines 18 to 38.  Returns the credential the
    handlers will use. *)
Definition main_module (os_environ : gmap string string) : M string :=
  let os_environ := load_dotenv os_environ in
  emit (CreateApp "ContextMAN Core API" "1.2.0") ;;;
  let GROQ_API_KEY := os_environ !! "GROQ_API_KEY" in
  if negb (truthy (of_optional GROQ_API_KEY)) then
    raise (ValueError missing_key_message)
  else
    emit (CreateClient (str_optional GROQ_API_KEY)) ;;;
    ret (str_optional GROQ_API_KEY).

(** [run.py], run with [sys.platform = platform] and
    [__name__ = name]. *)
Definition run_py (platform name : string)
    (os_environ : gmap string string) : M unit :=
  (if String.eqb platform "win32" then emit SetEventLoopPolicy else ret tt) ;;;
  _ <- main_module os_environ ;;
  if String.eqb name "__main__" then
    print "Starting ContextMAN server with custom runner..." ;;;
    emit (Listen "127.0.0.1" 8000)
  else ret tt.

End Startup.

(** [n] successive calls of a handler: the responses in order and the
    final trace. *)
Fixpoint repeat_call {A} (h : M A) (n : nat) (t : list event)
    : list (outcome A) * list event :=
  match n with
  | O => ([], t)
  | S n' =>
      let (r, t') := h t in
      let (rs, t'') := repeat_call h n' t' in
      (r :: rs, t'')
  end.

(** The delegate calls recorded in a trace. *)
Definition chat_calls (t : list event) : list chat_request :=
  omap (fun e => match e with ChatCreate r => Some r | _ => None end) t.

(** The numbered rules of a prompt: the lines of the form [<digit>. ...],
    each with its number. *)
Definition rule_number (line : string) : option nat :=
  match line with
  | String d (String dot _) =>
      let n := Ascii.nat_of_ascii d in
      if (Nat.leb 48 n && Nat.leb n 57 && Ascii.eqb dot (Ascii.ascii_of_nat 46))%bool
      then Some (n - 48)%nat else None
  | _ => None
  end.

Definition numbered_rules (s : string) : list (nat * string) :=
  omap (fun line => option_map (fun n => (n, line)) (rule_number line))
       (split_lines s).

(* ===================================================================== *)
(** ** Stubs used in the examples *)

Definition example_url : HttpUrl :=
  {| scheme := http; host := "example.com"; rest := EmptyString |}.

Definition example_parse_request : ParseRequest := {| url := example_url |}.

Definition stub (agent_result : outcome pyval)
    (completion : outcome ChatCompletion) : externals :=
  {| agent_run := fun _ => agent_result;
     chat_completions_create := fun _ => completion |}.

Definition no_completion : outcome ChatCompletion :=
  Return {| choices := [] |}.

Definition CancelledError : exn := BaseOnly "asyncio.CancelledError" EmptyString.

(** What the claims compare against. *)

(** A markdown-fenced block around [code]. *)
Definition fenced (code : string) : string :=
  "```" +:+ nl +:+ code +:+ nl +:+ "```".

Definition ping_payload : json :=
  [ ("status", VStr "ok");
    ("message",
     VStr "ContextMAN server is running on Groq with model: mixtral-8x7b-32768") ].

Definition example_synthesize_request : SynthesizeRequest :=
  {| purpose := "summarize"; parsed_context := "...";
     user_code := Some "print(1)" |}.

Definition empty_code_request : SynthesizeRequest :=
  {| purpose := "summarize"; parsed_context := "...";
     user_code := Some EmptyString |}.

Definition example_completion : ChatCompletion :=
  {| choices := [ {| message_content := Some "### CONTEXT BRIEF ###" |} ] |}.

Definition TimeoutError : exn := OtherException "TimeoutError" "timed out".

(** No [.env] file: [load_dotenv] leaves the environment as it is. *)
Definition no_dotenv (os_environ : gmap string string) : gmap string string :=
  os_environ.

(** Unfolds one handler down to the delegate's answer. *)
Ltac run_handler :=
  unfold parse_url, synthesize_context, try_except_Exception, bind, print,
    emit, raise, ret, await_agent_run, await_chat_create, subscript; simpl.

(** The agent runs recorded in a trace. *)
Definition agent_calls (t : list event) : list Agent :=
  omap (fun e => match e with AgentRun a => Some a | _ => None end) t.

(** The lines printed in a trace. *)
Definition printed (t : list event) : list string :=
  omap (fun e => match e with Print line => Some line | _ => None end) t.

(** The fixed text of [parsing_task] before and after the URL. *)
Definition task_before_url : string :=
  "You are a web scraping assistant. Your ONLY job is to extract text from the provided URL: ".

Definition task_after_url : string :=
  ". DO NOT navigate to any other URLs. DO NOT use search. Your primary goal is to extract the full user-assistant conversation from the page. Identify each turn of the conversation clearly, separating user and assistant roles. If there are code blocks within the conversation, ensure they are included and properly formatted using markdown code fences (```). If the page does not contain a conversation, return the main text content of the page. Return only the final extracted text as a single string.".

(** The text that separates purpose from context in [user_message]. *)
Definition context_heading : string :=
  nl +:+ nl +:+ "**Messy Context / Chat History:**" +:+ nl.

(** The process from import to one [/parse] request: the handler reads
    the module global [GROQ_API_KEY] that importing [main] has set. *)
Definition import_then_parse (load_dotenv : gmap string string -> gmap string string)
    (str : Z -> string -> string) (ext : externals)
    (os_environ : gmap string string) (request : ParseRequest) : M json :=
  GROQ_API_KEY <- main_module load_dotenv os_environ ;;
  parse_url GROQ_API_KEY str ext request.

(** The lines [/parse] prints after its delegate call. *)
Definition parse_url_closing_lines (str : Z -> string -> string)
    (answer : outcome pyval) : list string :=
  match answer with
  | Return v =>
      if truthy v then [ "Parsing successful." ]
      else [ "ERROR: Agent failed to produce a result or returned empty.";
             "An unexpected error occurred during parsing: "
               +:+ str 500 empty_result_detail ]
  | Raise e =>
      if isinstance_Exception e
      then [ "An unexpected error occurred during parsing: " +:+ py_str str e ]
      else []
  end.

(** The lines [/synthesize] prints after its delegate call. *)
Definition synthesize_closing_lines (str : Z -> string -> string)
    (answer : outcome ChatCompletion) : list string :=
  match answer with
  | Return response =>
      match choices response with
      | _ :: _ => [ "Synthesis successful." ]
      | [] => [ "An unexpected error occurred during synthesis: list index out of range" ]
      end
  | Raise e =>
      if isinstance_Exception e
      then [ "An unexpected error occurred during synthesis: " +:+ py_str str e ]
      else []
  end.

(** The events of [run.py] before the credential check. *)
Definition startup_prelude (platform : string) : list event :=
  (if String.eqb platform "win32" then [SetEventLoopPolicy] else [])
    ++ [CreateApp "ContextMAN Core API" "1.2.0"].

(* ===================================================================== *)
(** ** Basic facts about strings and the monad *)

Lemma append_empty_r (s : string) : s +:+ EmptyString = s.
Proof. induction s as [|c s IH]; simpl; [reflexivity | now rewrite IH]. Qed.

Lemma append_assoc (a b c : string) : (a +:+ b) +:+ c = a +:+ (b +:+ c).
Proof. induction a as [|x a IH]; simpl; [reflexivity | now rewrite IH]. Qed.

Lemma starts_with_append (p r : string) : starts_with p (p +:+ r) = true.
Proof.
  induction p as [|c p IH]; simpl; [reflexivity|].
  now rewrite Ascii.eqb_refl.
Qed.

Lemma starts_with_Prefix (p s : string) :
  starts_with p s = true <-> Prefix p s.
Proof.
  split.
  - revert s. induction p as [|c p IH]; intros s H.
    + now exists s.
    + destruct s as [|d s]; simpl in H; [discriminate|].
      destruct (Ascii.eqb c d) eqn:E; [|discriminate].
      apply Ascii.eqb_eq in E. subst d.
      destruct (IH s H) as [r ->]. now exists r.
  - intros [r ->]. apply starts_with_append.
Qed.

Lemma contains_of_starts_with (t s : string) :
  starts_with t s = true -> contains t s = true.
Proof. intros H. destruct s; unfold contains; fold contains; now rewrite H. Qed.

Lemma contains_Infix (t s : string) :
  contains t s = true <-> Infix t s.
Proof.
  split.
  - induction s as [|c s IH]; simpl; intros H.
    + rewrite orb_false_r in H. apply starts_with_Prefix in H.
      destruct H as [r ->]. now exists EmptyString, r.
    + apply orb_true_iff in H. destruct H as [H|H].
      * apply starts_with_Prefix in H. destruct H as [r Hr].
        exists EmptyString, r. exact Hr.
      * destruct (IH H) as (l & r & ->). now exists (String c l), r.
  - intros (l & r & ->). induction l as [|c l IH]; simpl.
    + apply contains_of_starts_with, starts_with_append.
    + rewrite IH. apply orb_true_r.
Qed.

(* ===================================================================== *)
(** ** [POST /parse] *)

(** What [/parse] answers, by the delegate's answer. *)
Lemma parse_url_result key str ext request t :
  fst (parse_url key str ext request t) =
  match agent_run ext (parse_agent key request) with
  | Return v =>
      if truthy v then Return [("parsed_content", v)]
      else Raise (HTTPException 500
             ("Failed to parse URL: " +:+ str 500 empty_result_detail))
  | Raise e =>
      if isinstance_Exception e
      then Raise (HTTPException 500 ("Failed to parse URL: " +:+ py_str str e))
      else Raise e
  end.
Proof.
  run_handler.
  destruct (agent_run ext (parse_agent key request)) as [v|e]; simpl.
  - destruct (truthy v); simpl; [reflexivity|].
    now rewrite append_empty_r.
  - destruct (isinstance_Exception e); simpl; [|reflexivity].
    now rewrite append_empty_r.
Qed.

(** What [/parse] prints and calls, by the delegate's answer. *)
Lemma parse_url_trace key str ext request t :
  snd (parse_url key str ext request t) =
  t ++ [ Print ("Received request to parse URL: " +:+ str_url (url request));
         AgentRun (parse_agent key request) ] ++
  match agent_run ext (parse_agent key request) with
  | Return v =>
      if truthy v then [ Print "Parsing successful." ]
      else [ Print "ERROR: Agent failed to produce a result or returned empty.";
             Print ("An unexpected error occurred during parsing: "
                      +:+ str 500 empty_result_detail) ]
  | Raise e =>
      if isinstance_Exception e
      then [ Print ("An unexpected error occurred during parsing: " +:+ py_str str e) ]
      else []
  end.
Proof.
  run_handler.
  destruct (agent_run ext (parse_agent key request)) as [v|e]; simpl.
  - destruct (truthy v); simpl; rewrite ?append_empty_r, <- ?app_assoc;
      reflexivity.
  - destruct (isinstance_Exception e); simpl;
      rewrite ?append_empty_r, <- ?app_assoc; reflexivity.
Qed.

(** C1, as amended.  [/parse] ends in one of three ways: it fails
    with an HTTP 500 error; it returns a 200 body whose [parsed_content]
    is the truthy value the extraction delegate returned; or the delegate
    raised something that is not an [Exception] (a cancellation, an
    interpreter exit), which passes through the handler untouched.  It
    never returns a 200 body when the delegate's result is falsy. *)
Theorem parse_url_outcomes key str ext request t :
  let r := fst (parse_url key str ext request t) in
  let answer := agent_run ext (parse_agent key request) in
  ((exists d, r = Raise (HTTPException 500 d)) \/
   (exists v, answer = Return v /\ truthy v = true /\
              r = Return [("parsed_content", v)]) \/
   (exists e, answer = Raise e /\ isinstance_Exception e = false /\
              r = Raise e)) /\
  (forall v body, answer = Return v -> truthy v = false -> r <> Return body).
Proof.
  cbv zeta. rewrite parse_url_result.
  destruct (agent_run ext (parse_agent key request)) as [v|e].
  - destruct (truthy v) eqn:Hv; split.
    + right; left. now exists v.
    + intros v' body [= <-] Hv'. congruence.
    + left. now eexists.
    + intros; discriminate.
  - destruct (isinstance_Exception e) eqn:He; split.
    + left. now eexists.
    + intros; discriminate.
    + right; right. now exists e.
    + intros; discriminate.
Qed.

(** C1, as first stated, fails: when the awaited delegate call is
    cancelled, the handler neither fails with an HTTP error nor returns a
    body. *)
Lemma parse_url_cancelled_no_response :
  let r := fst (parse_url "gsk_test" starlette_str
                  (stub (Raise CancelledError) no_completion)
                  example_parse_request []) in
  r = Raise CancelledError /\
  (forall d, r <> Raise (HTTPException 500 d)) /\
  (forall body, r <> Return body).
Proof.
  rewrite parse_url_result. simpl.
  split; [reflexivity|]. split; intros; discriminate.
Qed.

(** C1 on the spec's example of a delegate returning the empty string:
    no 200 body comes back. *)
Lemma parse_url_outcomes_witness :
  fst (parse_url "gsk_test" starlette_str
         (stub (Return (VStr EmptyString)) no_completion)
         example_parse_request [])
    <> Return [("parsed_content", VStr EmptyString)].
Proof.
  apply (proj2 (parse_url_outcomes "gsk_test" starlette_str
                  (stub (Return (VStr EmptyString)) no_completion)
                  example_parse_request []) (VStr EmptyString));
    reflexivity.
Defined.

(** C9.  Every HTTP error that [/parse] produces has status 500 and a
    detail that begins with [Failed to parse URL: ]; when the delegate
    returned a falsy result, the rest of the detail is the string form of
    the [HTTPException] raised by the empty-result check, caught by the
    handler's own [except Exception] clause. *)
Theorem parse_url_error_detail key str ext request t code detail :
  fst (parse_url key str ext request t) = Raise (HTTPException code detail) ->
  code = 500 /\
  Prefix "Failed to parse URL: " detail /\
  (forall v, agent_run ext (parse_agent key request) = Return v ->
             detail = "Failed to parse URL: " +:+ str 500 empty_result_detail).
Proof.
  rewrite parse_url_result.
  destruct (agent_run ext (parse_agent key request)) as [v|e].
  - destruct (truthy v); [discriminate|].
    intros [= <- <-]. repeat split.
    + now eexists.
  - destruct (isinstance_Exception e) eqn:He.
    + intros [= <- <-]. repeat split.
      * now eexists.
      * intros; discriminate.
    + intros [= ->]. discriminate.
Qed.

Lemma parse_url_error_detail_witness :
  "Failed to parse URL: 500: The browser agent failed to extract content. Check server logs."
    = "Failed to parse URL: " +:+ starlette_str 500 empty_result_detail.
Proof.
  refine (proj2 (proj2 (parse_url_error_detail "gsk_test" starlette_str
            (stub (Return VNone) no_completion) example_parse_request []
            500 _ _)) VNone _); reflexivity.
Defined.

(** C4 at its failing input: with a delegate that returns the empty
    string, the client does not see the detail of the empty-result check
    but that exception stringified and wrapped by the generic handler,
    however [HTTPException] prints. *)
Example parse_url_empty_result_detail :
  fst (parse_url "gsk_test" starlette_str
         (stub (Return (VStr EmptyString)) no_completion)
         example_parse_request [])
  = Raise (HTTPException 500
      "Failed to parse URL: 500: The browser agent failed to extract content. Check server logs.")
  /\ (forall str,
        fst (parse_url "gsk_test" str
               (stub (Return (VStr EmptyString)) no_completion)
               example_parse_request [])
        <> Raise (HTTPException 500 empty_result_detail)).
Proof.
  split; [vm_compute; reflexivity|].
  intros str. rewrite parse_url_result. simpl. intros [= H].
Qed.

(* ===================================================================== *)
(** ** [POST /synthesize] *)

(** What [/synthesize] answers, by the delegate's answer. *)
Lemma synthesize_context_result str ext request t :
  fst (synthesize_context str ext request t) =
  match chat_completions_create ext (synthesis_request request) with
  | Return response =>
      match choices response with
      | first :: _ =>
          Return [("synthesized_prompt", of_optional (message_content first))]
      | [] =>
          Raise (HTTPException 500
                   "Failed to synthesize context: list index out of range")
      end
  | Raise e =>
      if isinstance_Exception e
      then Raise (HTTPException 500
                    ("Failed to synthesize context: " +:+ py_str str e))
      else Raise e
  end.
Proof.
  run_handler.
  destruct (chat_completions_create ext (synthesis_request request))
    as [response|e]; simpl.
  - destruct (choices response) as [|first rest]; reflexivity.
  - destruct (isinstance_Exception e); simpl; [|reflexivity].
    now rewrite append_empty_r.
Qed.

(** What [/synthesize] prints and calls: one chat-completion call between
    printed lines. *)
Lemma synthesize_context_trace str ext request t :
  exists lines,
    snd (synthesize_context str ext request t) =
      t ++ [ Print ("Received request to synthesize for purpose: "
                      +:+ purpose request);
             ChatCreate (synthesis_request request) ] ++ map Print lines /\
    (forall e, chat_completions_create ext (synthesis_request request) = Raise e ->
               isinstance_Exception e = true ->
               lines = ["An unexpected error occurred during synthesis: "
                          +:+ py_str str e]).
Proof.
  run_handler.
  destruct (chat_completions_create ext (synthesis_request request))
    as [response|e]; simpl.
  - destruct (choices response) as [|first rest]; simpl.
    + eexists [_]. rewrite ?append_empty_r, <- ?app_assoc.
      split; [reflexivity|]. intros; discriminate.
    + eexists [_]. rewrite ?append_empty_r, <- ?app_assoc.
      split; [reflexivity|]. intros; discriminate.
  - destruct (isinstance_Exception e) eqn:He; simpl.
    + eexists [_]. rewrite ?append_empty_r, <- ?app_assoc.
      split; [reflexivity|]. now intros e' [= <-] _.
    + exists []. rewrite ?append_empty_r, <- ?app_assoc.
      split; [reflexivity|]. intros e' [= <-]. congruence.
Qed.

Lemma chat_calls_prints (lines : list string) : chat_calls (map Print lines) = [].
Proof. induction lines as [|l ls IH]; [reflexivity | exact IH]. Qed.

(** C5.  Whatever the request, [/synthesize] makes exactly one
    chat-completion call, with the fixed model constant, the two messages
    system then user, and a temperature; and when that call returns a
    completion with a first choice, the handler returns a 200 body whose
    [synthesized_prompt] is that choice's text. *)
Theorem synthesize_context_single_call str ext request t :
  chat_calls (snd (synthesize_context str ext request t)) =
    chat_calls t ++
    [ {| model := "mixtral-8x7b-32768";
         messages := [ {| msg_role := system; content := system_prompt |};
                       {| msg_role := user; content := user_message request |} ];
         temperature := (5 # 10)%Q |} ] /\
  (forall response first rest,
     chat_completions_create ext (synthesis_request request) = Return response ->
     choices response = first :: rest ->
     fst (synthesize_context str ext request t) =
       Return [("synthesized_prompt", of_optional (message_content first))]).
Proof.
  split.
  - destruct (synthesize_context_trace str ext request t) as (lines & -> & _).
    unfold chat_calls. rewrite !omap_app. fold (chat_calls (map Print lines)).
    rewrite chat_calls_prints. reflexivity.
  - intros response first rest Hr Hc.
    now rewrite synthesize_context_result, Hr, Hc.
Qed.

Lemma synthesize_context_single_call_witness :
  fst (synthesize_context starlette_str
         (stub (Return VNone) (Return example_completion))
         example_synthesize_request [])
  = Return [("synthesized_prompt", VStr "### CONTEXT BRIEF ###")].
Proof.
  refine (proj2 (synthesize_context_single_call starlette_str
            (stub (Return VNone) (Return example_completion))
            example_synthesize_request []) example_completion
            {| message_content := Some "### CONTEXT BRIEF ###" |} [] _ _);
    reflexivity.
Defined.

(* ===================================================================== *)
(** ** The error policy of both POST handlers *)

(** C3, as amended.  When the delegate call raises an instance of
    [Exception], the handler prints it and fails with an HTTP 500 error
    whose detail is the handler's fixed prefix followed by that
    exception's message, whatever the class of the exception.  When it
    raises anything else (any class that derives from [BaseException]
    only: a cancellation, a keyboard interrupt, an interpreter exit), the
    exception is not caught: it leaves the handler as it is, and no error
    line is printed. *)
Theorem delegate_exception_becomes_500 key str ext e :
  (isinstance_Exception e = true ->
   (forall request t,
      agent_run ext (parse_agent key request) = Raise e ->
      fst (parse_url key str ext request t) =
        Raise (HTTPException 500 ("Failed to parse URL: " +:+ py_str str e)) /\
      Print ("An unexpected error occurred during parsing: " +:+ py_str str e)
        ∈ snd (parse_url key str ext request t)) /\
   (forall request t,
      chat_completions_create ext (synthesis_request request) = Raise e ->
      fst (synthesize_context str ext request t) =
        Raise (HTTPException 500
                 ("Failed to synthesize context: " +:+ py_str str e)) /\
      Print ("An unexpected error occurred during synthesis: " +:+ py_str str e)
        ∈ snd (synthesize_context str ext request t))) /\
  (forall cls msg, e = BaseOnly cls msg ->
   (forall request t,
      agent_run ext (parse_agent key request) = Raise e ->
      parse_url key str ext request t =
        (Raise (BaseOnly cls msg),
         t ++ [ Print ("Received request to parse URL: "
                         +:+ str_url (url request));
                AgentRun (parse_agent key request) ])) /\
   (forall request t,
      chat_completions_create ext (synthesis_request request) = Raise e ->
      synthesize_context str ext request t =
        (Raise (BaseOnly cls msg),
         t ++ [ Print ("Received request to synthesize for purpose: "
                         +:+ purpose request);
                ChatCreate (synthesis_request request) ]))).
Proof.
  split.
  - intros He. split; intros request t Hr.
    + rewrite parse_url_result, parse_url_trace, Hr, He.
      split; [reflexivity|]. set_solver.
    + rewrite synthesize_context_result, Hr, He. split; [reflexivity|].
      destruct (synthesize_context_trace str ext request t)
        as (lines & -> & Hl).
      rewrite (Hl e Hr He). set_solver.
  - intros cls msg ->. split; intros request t Hr.
    + rewrite (surjective_pairing (parse_url key str ext request t)).
      rewrite parse_url_result, parse_url_trace, Hr. reflexivity.
    + run_handler. rewrite Hr. simpl.
      now rewrite ?append_empty_r, <- ?app_assoc.
Qed.

Lemma delegate_exception_becomes_500_witness :
  fst (parse_url "gsk_test" starlette_str
         (stub (Raise TimeoutError) (Raise TimeoutError))
         example_parse_request [])
    = Raise (HTTPException 500 "Failed to parse URL: timed out") /\
  fst (synthesize_context starlette_str
         (stub (Raise TimeoutError) (Raise TimeoutError))
         example_synthesize_request [])
    = Raise (HTTPException 500 "Failed to synthesize context: timed out").
Proof.
  destruct (proj1 (delegate_exception_becomes_500 "gsk_test" starlette_str
              (stub (Raise TimeoutError) (Raise TimeoutError)) TimeoutError))
    as [Hp Hs]; [reflexivity|].
  split.
  - apply (Hp example_parse_request []). reflexivity.
  - apply (Hs example_synthesize_request []). reflexivity.
Defined.

(** C3, as first stated, fails: a cancellation raised by the delegate
    call is not an [Exception], so it leaves either handler unhandled and
    no HTTP 500 error is produced. *)
Lemma delegate_cancellation_escapes :
  let ext := stub (Raise CancelledError) (Raise CancelledError) in
  let p := fst (parse_url "gsk_test" starlette_str ext example_parse_request []) in
  let s := fst (synthesize_context starlette_str ext example_synthesize_request []) in
  p = Raise CancelledError /\ s = Raise CancelledError /\
  (forall code detail, p <> Raise (HTTPException code detail)) /\
  (forall code detail, s <> Raise (HTTPException code detail)).
Proof.
  cbv zeta. rewrite parse_url_result, synthesize_context_result. simpl.
  repeat split; intros; discriminate.
Qed.

(* ===================================================================== *)
(** ** The prompt template of [/synthesize] *)

Lemma user_code_section_None request :
  user_code request = None -> user_code_section request = "N/A".
Proof. unfold user_code_section. now intros ->. Qed.

Lemma user_code_section_empty request :
  user_code request = Some EmptyString -> user_code_section request = "N/A".
Proof. unfold user_code_section. now intros ->. Qed.

Lemma user_code_section_code request c code :
  user_code request = Some (String c code) ->
  user_code_section request = fenced (String c code).
Proof. unfold user_code_section. now intros ->. Qed.

(** The user message ends with the code heading, the code section and a
    line feed. *)
Lemma user_message_tail request :
  exists before,
    user_message request =
      before +:+ "**User's Code (if any):**" +:+ nl
             +:+ user_code_section request +:+ nl.
Proof.
  exists ("Here is the information to synthesize:" +:+ nl +:+ nl
            +:+ "**User's Goal:**" +:+ nl +:+ purpose request +:+ nl +:+ nl
            +:+ "**Messy Context / Chat History:**" +:+ nl
            +:+ parsed_context request +:+ nl +:+ nl).
  unfold user_message, fstring.
  rewrite append_empty_r, !append_assoc. reflexivity.
Qed.

(** C2, as amended.  The code section of the user message is the literal
    [N/A] exactly when [user_code] is omitted, null or the empty string;
    it is a markdown-fenced block around the exact [user_code] text
    whenever [user_code] is a non-empty string; and the user message
    carries that section under its code heading. *)
Theorem user_code_section_cases request :
  (user_code_section request = "N/A" <->
     user_code request = None \/ user_code request = Some EmptyString) /\
  (forall code, user_code request = Some code -> code <> EmptyString ->
     user_code_section request = fenced code) /\
  (exists before,
     user_message request =
       before +:+ "**User's Code (if any):**" +:+ nl
              +:+ user_code_section request +:+ nl).
Proof.
  split; [|split].
  - split.
    + destruct (user_code request) as [[|c code]|] eqn:E; auto.
      rewrite (user_code_section_code request c code E). discriminate.
    + intros [E|E];
        [apply user_code_section_None | apply user_code_section_empty]; exact E.
  - intros [|c code] E Hne; [congruence|].
    exact (user_code_section_code request c code E).
  - apply user_message_tail.
Qed.

Lemma user_code_section_cases_witness :
  user_code_section example_synthesize_request
    = "```" +:+ nl +:+ "print(1)" +:+ nl +:+ "```".
Proof.
  apply (proj1 (proj2 (user_code_section_cases example_synthesize_request))
           "print(1)"); [reflexivity | discriminate].
Defined.

(** C2, as first stated, fails: a request whose [user_code] is present
    and is the empty string gets [N/A], and no fenced block at all. *)
Lemma user_code_section_empty_string_counterexample :
  user_code empty_code_request <> None /\
  user_code_section empty_code_request = "N/A" /\
  contains (fenced EmptyString) (user_message empty_code_request) = false /\
  contains "```" (user_message empty_code_request) = false.
Proof. repeat split; try discriminate; vm_compute; reflexivity. Qed.

(** C10.  When [user_code] is present and is the empty string, the code
    section is [N/A], not an empty fenced block, and the user message
    carries [N/A] under its code heading. *)
Theorem user_code_empty_string_is_NA request :
  user_code request = Some EmptyString ->
  user_code_section request = "N/A" /\
  user_code_section request <> fenced EmptyString /\
  (exists before,
     user_message request =
       before +:+ "**User's Code (if any):**" +:+ nl +:+ "N/A" +:+ nl).
Proof.
  intros E. pose proof (user_code_section_empty request E) as Hs.
  split; [exact Hs|]. split.
  - rewrite Hs. discriminate.
  - rewrite <- Hs. apply user_message_tail.
Qed.

Lemma user_code_empty_string_is_NA_witness :
  user_code_section empty_code_request = "N/A" /\
  user_code_section empty_code_request <> fenced EmptyString.
Proof.
  destruct (user_code_empty_string_is_NA empty_code_request) as (H1 & H2 & _);
    [reflexivity|].
  split; assumption.
Defined.

(** C6.  The system message of the chat-completion call is the same fixed
    string for every request; that string has five numbered rules, 1 to
    5, the first of which asks to start with the heading
    [### CONTEXT BRIEF ###]; and the user message is purpose, context and
    code section, each under its fixed heading, in that order, where the
    code section is the request's code inside a fenced block when there
    is some, and [N/A] when [user_code] is null or empty. *)
Theorem synthesize_prompt_template str ext request t :
  ChatCreate (synthesis_request request)
    ∈ snd (synthesize_context str ext request t) /\
  messages (synthesis_request request) !! 0%nat =
    Some {| msg_role := system; content := system_prompt |} /\
  map fst (numbered_rules system_prompt) = [1; 2; 3; 4; 5]%nat /\
  numbered_rules system_prompt !! 0%nat =
    Some (1%nat, "1.  Start with a clear heading `### CONTEXT BRIEF ###`.") /\
  messages (synthesis_request request) !! 1%nat =
    Some {| msg_role := user; content := user_message request |} /\
  user_message request =
    "Here is the information to synthesize:" +:+ nl +:+ nl
      +:+ "**User's Goal:**" +:+ nl +:+ purpose request +:+ nl +:+ nl
      +:+ "**Messy Context / Chat History:**" +:+ nl
      +:+ parsed_context request +:+ nl +:+ nl
      +:+ "**User's Code (if any):**" +:+ nl
      +:+ match user_code request with
          | Some (String c code) =>
              "```" +:+ nl +:+ String c code +:+ nl +:+ "```"
          | _ => "N/A"
          end +:+ nl /\
  user_code_section request =
    match user_code request with
    | Some (String c code) => "```" +:+ nl +:+ String c code +:+ nl +:+ "```"
    | _ => "N/A"
    end.
Proof.
  assert (Hsection : user_code_section request =
            match user_code request with
            | Some (String c code) =>
                "```" +:+ nl +:+ String c code +:+ nl +:+ "```"
            | _ => "N/A"
            end).
  { destruct (user_code request) as [[|c code]|] eqn:E.
    - now apply user_code_section_empty.
    - now rewrite (user_code_section_code request c code E).
    - now apply user_code_section_None. }
  split; [|split; [|split; [|split; [|split; [|split]]]]].
  - destruct (synthesize_context_trace str ext request t) as (lines & -> & _).
    set_solver.
  - reflexivity.
  - vm_compute. reflexivity.
  - vm_compute. reflexivity.
  - reflexivity.
  - rewrite <- Hsection. unfold user_message, fstring.
    now rewrite append_empty_r.
  - exact Hsection.
Qed.

(* ===================================================================== *)
(** ** [GET /ping] *)

Lemma read_root_run (t : list event) : read_root t = (Return ping_payload, t).
Proof. reflexivity. Qed.

(** C8.  From any trace and for any number of successive calls, every
    call of [/ping] returns the same fixed payload, which names the
    service and the configured model; no call fails, and the trace of
    effects is left as it was. *)
Theorem read_root_repeatable (n : nat) (t : list event) :
  repeat_call read_root n t = (replicate n (Return ping_payload), t) /\
  ping_payload =
    [ ("status", VStr "ok");
      ("message",
       VStr ("ContextMAN server is running on Groq with model: " +:+ MODEL_NAME)) ].
Proof.
  split; [|reflexivity].
  induction n as [|n IH]; simpl.
  - reflexivity.
  - rewrite IH. reflexivity.
Qed.

(* ===================================================================== *)
(** ** Start-up *)

Lemma main_module_missing_key load_dotenv os_environ t :
  load_dotenv os_environ !! "GROQ_API_KEY" = None ->
  main_module load_dotenv os_environ t =
    (Raise (ValueError missing_key_message),
     t ++ [CreateApp "ContextMAN Core API" "1.2.0"]).
Proof.
  intros H. unfold main_module, bind, emit, raise. now rewrite H.
Qed.

(** With a non-empty credential in the environment the same script does
    reach the listener. *)
Lemma run_py_with_key load_dotenv os_environ key :
  load_dotenv os_environ !! "GROQ_API_KEY" = Some key ->
  key <> EmptyString ->
  fst (run_py load_dotenv "linux" "__main__" os_environ []) = Return tt /\
  Listen "127.0.0.1" 8000 ∈ snd (run_py load_dotenv "linux" "__main__" os_environ []).
Proof.
  intros H Hk. unfold run_py, main_module, bind, emit, raise, ret, print.
  simpl. rewrite H. simpl.
  destruct key as [|c key]; [congruence|]. simpl.
  split; [reflexivity | set_solver].
Qed.

(** C7.  When the credential is absent from the process environment that
    module initialisation reads, importing [main] raises [ValueError],
    so [run.py] stops there: it fails with that error and no listener is
    created, on any platform and however the script was entered. *)
Theorem missing_credential_stops_startup
    load_dotenv platform name os_environ t :
  load_dotenv os_environ !! "GROQ_API_KEY" = None ->
  fst (main_module load_dotenv os_environ t) =
    Raise (ValueError missing_key_message) /\
  fst (run_py load_dotenv platform name os_environ t) =
    Raise (ValueError missing_key_message) /\
  (forall host port,
     Listen host port ∈ snd (run_py load_dotenv platform name os_environ t) ->
     Listen host port ∈ t).
Proof.
  intros H. split; [now rewrite main_module_missing_key|].
  unfold run_py, bind.
  destruct (String.eqb platform "win32"); unfold emit, ret;
    rewrite main_module_missing_key by exact H; simpl;
    (split; [reflexivity|]); intros host port Hin;
    repeat (apply elem_of_app in Hin as [Hin|Hin]);
    try (apply list_elem_of_singleton in Hin; discriminate); assumption.
Qed.

Lemma missing_credential_stops_startup_witness :
  fst (run_py no_dotenv "linux" "__main__" {[ "PATH" := "/usr/bin" ]} [])
    = Raise (ValueError missing_key_message) /\
  Listen "127.0.0.1" 8000
    ∉ snd (run_py no_dotenv "linux" "__main__" {[ "PATH" := "/usr/bin" ]} []).
Proof.
  destruct (missing_credential_stops_startup no_dotenv "linux" "__main__"
              {[ "PATH" := "/usr/bin" ]} []) as (_ & Hr & Hl).
  - vm_compute. reflexivity.
  - split; [exact Hr|].
    intros Hin. apply Hl in Hin. inversion Hin.
Defined.

(* ===================================================================== *)
(** ** Further properties of the handlers *)

Lemma string_length_append (a b : string) :
  String.length (a +:+ b) = (String.length a + String.length b)%nat.
Proof. induction a as [|c a IH]; simpl; [reflexivity | now rewrite IH]. Qed.

Lemma append_cancel_l (p a b : string) : p +:+ a = p +:+ b -> a = b.
Proof. induction p as [|c p IH]; simpl; [auto | intros [= H]; auto]. Qed.

Lemma append_cancel_r (a b s : string) : a +:+ s = b +:+ s -> a = b.
Proof.
  revert b. induction a as [|c a IH]; intros [|d b] H; simpl in H.
  - reflexivity.
  - apply (f_equal String.length) in H. simpl in H.
    rewrite string_length_append in H. lia.
  - apply (f_equal String.length) in H. simpl in H.
    rewrite string_length_append in H. lia.
  - injection H as -> H. f_equal. now apply IH.
Qed.

Lemma agent_calls_prints (lines : list string) : agent_calls (map Print lines) = [].
Proof. induction lines as [|l ls IH]; [reflexivity | exact IH]. Qed.

Lemma parse_url_events key str ext request t :
  snd (parse_url key str ext request t) =
  t ++ [ Print ("Received request to parse URL: " +:+ str_url (url request));
         AgentRun (parse_agent key request) ] ++
  map Print (parse_url_closing_lines str
               (agent_run ext (parse_agent key request))).
Proof.
  rewrite parse_url_trace. unfold parse_url_closing_lines.
  destruct (agent_run ext (parse_agent key request)) as [v|e].
  - now destruct (truthy v).
  - now destruct (isinstance_Exception e).
Qed.

(** X1.  Whatever the delegate answers, [/parse] runs the browsing agent
    exactly once, with the task built from the URL, the fixed model, the
    start-up credential and temperature 0, and makes no chat-completion
    call. *)
Theorem parse_url_single_agent_run key str ext request t :
  agent_calls (snd (parse_url key str ext request t)) =
    agent_calls t ++
    [ {| task := parsing_task request;
         llm := {| llm_model := "mixtral-8x7b-32768";
                   llm_api_key := key;
                   llm_temperature := 0%Q |} |} ] /\
  chat_calls (snd (parse_url key str ext request t)) = chat_calls t.
Proof.
  rewrite parse_url_events. unfold agent_calls, chat_calls.
  rewrite !omap_app.
  fold (agent_calls (map Print (parse_url_closing_lines str
          (agent_run ext (parse_agent key request))))).
  fold (chat_calls (map Print (parse_url_closing_lines str
          (agent_run ext (parse_agent key request))))).
  rewrite agent_calls_prints, chat_calls_prints. simpl.
  split; [reflexivity | now rewrite app_nil_r].
Qed.

(** X2.  The task handed to the agent is the fixed instruction with the
    request's URL spliced in at one place, so that two requests get the
    same task only when their URLs print the same. *)
Theorem parsing_task_embeds_url (r1 r2 : ParseRequest) :
  parsing_task r1 = task_before_url +:+ str_url (url r1) +:+ task_after_url /\
  (parsing_task r1 = parsing_task r2 -> str_url (url r1) = str_url (url r2)).
Proof.
  assert (H : forall r, parsing_task r =
            task_before_url +:+ str_url (url r) +:+ task_after_url).
  { intros r. unfold parsing_task, fstring, task_before_url.
    do 2 f_equal. }
  split; [apply H|].
  rewrite !H. intros E.
  apply append_cancel_l in E. now apply append_cancel_r in E.
Qed.

Lemma parsing_task_embeds_url_witness :
  str_url (url example_parse_request) = "http://example.com".
Proof.
  apply (proj2 (parsing_task_embeds_url example_parse_request
                  {| url := {| scheme := http; host := "example";
                               rest := ".com" |} |})).
  reflexivity.
Defined.

Lemma synthesize_context_events str ext request t :
  snd (synthesize_context str ext request t) =
  t ++ [ Print ("Received request to synthesize for purpose: "
                  +:+ purpose request);
         ChatCreate (synthesis_request request) ] ++
  map Print (synthesize_closing_lines str
               (chat_completions_create ext (synthesis_request request))).
Proof.
  run_handler. unfold synthesize_closing_lines.
  destruct (chat_completions_create ext (synthesis_request request))
    as [response|e]; simpl.
  - destruct (choices response) as [|first rest]; simpl;
      rewrite ?append_empty_r, <- ?app_assoc; reflexivity.
  - destruct (isinstance_Exception e); simpl;
      rewrite ?append_empty_r, <- ?app_assoc; reflexivity.
Qed.

(** X3.  [/synthesize] never runs the browsing agent, whatever the
    chat-completion delegate answers. *)
Theorem synthesize_context_no_agent_run str ext request t :
  agent_calls (snd (synthesize_context str ext request t)) = agent_calls t.
Proof.
  rewrite synthesize_context_events. unfold agent_calls.
  rewrite !omap_app.
  fold (agent_calls (map Print (synthesize_closing_lines str
          (chat_completions_create ext (synthesis_request request))))).
  rewrite agent_calls_prints. simpl. now rewrite app_nil_r.
Qed.

Lemma printed_prints (lines : list string) : printed (map Print lines) = lines.
Proof. induction lines as [|l ls IH]; [reflexivity | simpl; now rewrite IH]. Qed.

Lemma parse_url_printed key str ext request t :
  printed (snd (parse_url key str ext request t)) =
  printed t ++
  ("Received request to parse URL: " +:+ str_url (url request))
    :: parse_url_closing_lines str (agent_run ext (parse_agent key request)).
Proof.
  rewrite parse_url_events. unfold printed. rewrite !omap_app.
  fold (printed (map Print (parse_url_closing_lines str
          (agent_run ext (parse_agent key request))))).
  now rewrite printed_prints.
Qed.

Lemma synthesize_context_printed str ext request t :
  printed (snd (synthesize_context str ext request t)) =
  printed t ++
  ("Received request to synthesize for purpose: " +:+ purpose request)
    :: synthesize_closing_lines str
         (chat_completions_create ext (synthesis_request request)).
Proof.
  rewrite synthesize_context_events. unfold printed. rewrite !omap_app.
  fold (printed (map Print (synthesize_closing_lines str
          (chat_completions_create ext (synthesis_request request))))).
  now rewrite printed_prints.
Qed.

(** X4.  A completion that comes back with no choices at all makes
    [/synthesize] fail with an HTTP 500 error whose detail is the index
    error of [choices[0]]; the request line and that error are the only
    lines printed. *)
Theorem synthesize_context_no_choices str ext request t response :
  chat_completions_create ext (synthesis_request request) = Return response ->
  choices response = [] ->
  fst (synthesize_context str ext request t) =
    Raise (HTTPException 500
             "Failed to synthesize context: list index out of range") /\
  printed (snd (synthesize_context str ext request t)) =
    printed t ++
    [ "Received request to synthesize for purpose: " +:+ purpose request;
      "An unexpected error occurred during synthesis: list index out of range" ].
Proof.
  intros Hr Hc.
  rewrite synthesize_context_result, synthesize_context_printed.
  unfold synthesize_closing_lines. now rewrite Hr, Hc.
Qed.

Lemma synthesize_context_no_choices_witness :
  fst (synthesize_context starlette_str (stub (Return VNone) no_completion)
         example_synthesize_request [])
  = Raise (HTTPException 500
             "Failed to synthesize context: list index out of range").
Proof.
  apply (proj1 (synthesize_context_no_choices starlette_str
                  (stub (Return VNone) no_completion)
                  example_synthesize_request [] {| choices := [] |}
                  eq_refl eq_refl)).
Defined.

(** X5.  A first choice without text is not an error: [/synthesize]
    returns a 200 body whose [synthesized_prompt] is null, and prints the
    success line. *)
Theorem synthesize_context_null_text str ext request t response first rest :
  chat_completions_create ext (synthesis_request request) = Return response ->
  choices response = first :: rest ->
  message_content first = None ->
  fst (synthesize_context str ext request t) =
    Return [("synthesized_prompt", VNone)] /\
  printed (snd (synthesize_context str ext request t)) =
    printed t ++
    [ "Received request to synthesize for purpose: " +:+ purpose request;
      "Synthesis successful." ].
Proof.
  intros Hr Hc Hn.
  rewrite synthesize_context_result, synthesize_context_printed.
  unfold synthesize_closing_lines. now rewrite Hr, Hc, Hn.
Qed.

Lemma synthesize_context_null_text_witness :
  fst (synthesize_context starlette_str
         (stub (Return VNone)
               (Return {| choices := [ {| message_content := None |} ] |}))
         example_synthesize_request [])
  = Return [("synthesized_prompt", VNone)].
Proof.
  apply (proj1 (synthesize_context_null_text starlette_str
                  (stub (Return VNone)
                     (Return {| choices := [ {| message_content := None |} ] |}))
                  example_synthesize_request []
                  {| choices := [ {| message_content := None |} ] |}
                  {| message_content := None |} []
                  eq_refl eq_refl eq_refl)).
Defined.

(** X6.  Every HTTP error that [/synthesize] produces has status 500 and
    a detail that begins with [Failed to synthesize context: ], whatever
    status an exception raised by the delegate carried. *)
Theorem synthesize_context_error_detail str ext request t code detail :
  fst (synthesize_context str ext request t) =
    Raise (HTTPException code detail) ->
  code = 500 /\ Prefix "Failed to synthesize context: " detail.
Proof.
  rewrite synthesize_context_result.
  destruct (chat_completions_create ext (synthesis_request request))
    as [response|e].
  - destruct (choices response) as [|first rest]; [|discriminate].
    intros [= <- <-]. split; [reflexivity | now eexists].
  - destruct (isinstance_Exception e) eqn:He.
    + intros [= <- <-]. split; [reflexivity | now eexists].
    + intros [= ->]. discriminate.
Qed.

Lemma synthesize_context_error_detail_witness :
  Prefix "Failed to synthesize context: "
         "Failed to synthesize context: 429: rate limited".
Proof.
  apply (synthesize_context_error_detail starlette_str
           (stub (Return VNone) (Raise (HTTPException 429 "rate limited")))
           example_synthesize_request [] 500).
  reflexivity.
Defined.

(** X7.  Both POST handlers only add to the trace, and the first thing
    they add is the line that logs the request, ahead of the delegate
    call. *)
Theorem handlers_log_request_first key str ext t :
  (forall request, exists later,
     snd (parse_url key str ext request t) =
       t ++ Print ("Received request to parse URL: " +:+ str_url (url request))
            :: AgentRun (parse_agent key request) :: later) /\
  (forall request, exists later,
     snd (synthesize_context str ext request t) =
       t ++ Print ("Received request to synthesize for purpose: "
                     +:+ purpose request)
            :: ChatCreate (synthesis_request request) :: later).
Proof.
  split; intros request; eexists.
  - rewrite parse_url_events. reflexivity.
  - rewrite synthesize_context_events. reflexivity.
Qed.

(** X8.  The success line is printed exactly when the handler returns a
    200 body: [Parsing successful.] for [/parse], [Synthesis successful.]
    for [/synthesize]. *)
Theorem success_line_iff_returned key str ext t :
  (forall request, exists closing,
     printed (snd (parse_url key str ext request t)) =
       printed t ++
       ("Received request to parse URL: " +:+ str_url (url request)) :: closing /\
     ("Parsing successful." ∈ closing <->
      exists body, fst (parse_url key str ext request t) = Return body)) /\
  (forall request, exists closing,
     printed (snd (synthesize_context str ext request t)) =
       printed t ++
       ("Received request to synthesize for purpose: " +:+ purpose request)
         :: closing /\
     ("Synthesis successful." ∈ closing <->
      exists body, fst (synthesize_context str ext request t) = Return body)).
Proof.
  split; intros request; eexists; (split; [|split]).
  - apply parse_url_printed.
  - rewrite parse_url_result. unfold parse_url_closing_lines.
    destruct (agent_run ext (parse_agent key request)) as [v|e].
    + destruct (truthy v); [now eexists|].
      intros H. apply list_elem_of_In in H. simpl in H.
      destruct H as [H|[H|[]]]; discriminate.
    + destruct (isinstance_Exception e); intros H;
        apply list_elem_of_In in H; simpl in H.
      * destruct H as [H|[]]. discriminate.
      * destruct H.
  - rewrite parse_url_result. unfold parse_url_closing_lines.
    destruct (agent_run ext (parse_agent key request)) as [v|e].
    + destruct (truthy v); [intros _; apply list_elem_of_singleton; reflexivity|].
      intros [body H]. discriminate.
    + destruct (isinstance_Exception e); intros [body H]; discriminate.
  - apply synthesize_context_printed.
  - rewrite synthesize_context_result. unfold synthesize_closing_lines.
    destruct (chat_completions_create ext (synthesis_request request))
      as [response|e].
    + destruct (choices response) as [|first rest]; [|now eexists].
      intros H. apply list_elem_of_In in H. simpl in H.
      destruct H as [H|[]]. discriminate.
    + destruct (isinstance_Exception e); intros H;
        apply list_elem_of_In in H; simpl in H.
      * destruct H as [H|[]]. discriminate.
      * destruct H.
  - rewrite synthesize_context_result. unfold synthesize_closing_lines.
    destruct (chat_completions_create ext (synthesis_request request))
      as [response|e].
    + destruct (choices response) as [|first rest];
        [intros [body H]; discriminate|].
      intros _. apply list_elem_of_singleton. reflexivity.
    + destruct (isinstance_Exception e); intros [body H]; discriminate.
Qed.

(* ===================================================================== *)
(** ** Further properties of start-up *)

(** [run.py], by the credential that module initialisation reads. *)
Lemma run_py_run load_dotenv platform name os_environ t :
  run_py load_dotenv platform name os_environ t =
  match load_dotenv os_environ !! "GROQ_API_KEY" with
  | Some (String c key) =>
      (Return tt,
       t ++ startup_prelude platform ++
         CreateClient (String c key) ::
         (if String.eqb name "__main__"
          then [ Print "Starting ContextMAN server with custom runner...";
                 Listen "127.0.0.1" 8000 ]
          else []))
  | _ => (Raise (ValueError missing_key_message), t ++ startup_prelude platform)
  end.
Proof.
  unfold run_py, main_module, startup_prelude, bind, emit, raise, ret, print.
  destruct (String.eqb platform "win32");
    destruct (load_dotenv os_environ !! "GROQ_API_KEY") as [[|c key]|]; simpl;
    try destruct (String.eqb name "__main__"); simpl;
    rewrite <- ?app_assoc; reflexivity.
Qed.

(** X9.  Start-up succeeds exactly when the environment that module
    initialisation reads holds a non-empty credential: an empty
    [GROQ_API_KEY] is refused like a missing one, with the same
    [ValueError]. *)
Theorem startup_succeeds_iff_credential
    load_dotenv platform name os_environ t :
  (fst (run_py load_dotenv platform name os_environ t) = Return tt <->
   exists key, load_dotenv os_environ !! "GROQ_API_KEY" = Some key /\
               key <> EmptyString) /\
  (fst (run_py load_dotenv platform name os_environ t) <> Return tt ->
   fst (run_py load_dotenv platform name os_environ t) =
     Raise (ValueError missing_key_message)).
Proof.
  rewrite run_py_run.
  destruct (load_dotenv os_environ !! "GROQ_API_KEY") as [[|c key]|]; simpl.
  - split; [|reflexivity]. split; [discriminate|].
    intros (key & [= <-] & Hne). congruence.
  - split; [|congruence]. split; [|reflexivity].
    intros _. now eexists.
  - split; [|reflexivity]. split; [discriminate|].
    intros (key & [=] & _).
Qed.

Lemma startup_succeeds_iff_credential_witness :
  fst (run_py no_dotenv "linux" "__main__" {[ "GROQ_API_KEY" := EmptyString ]} [])
    = Raise (ValueError missing_key_message).
Proof.
  apply (proj2 (startup_succeeds_iff_credential no_dotenv "linux" "__main__"
                  {[ "GROQ_API_KEY" := EmptyString ]} [])).
  vm_compute. discriminate.
Defined.

(** X10.  Run as a script with a non-empty credential, [run.py] creates
    the application, then the client with exactly that credential, then
    announces itself and starts one listener on 127.0.0.1 port 8000; on
    Windows the event-loop policy is set before all of that. *)
Theorem run_py_main_events load_dotenv platform os_environ t key :
  load_dotenv os_environ !! "GROQ_API_KEY" = Some key ->
  key <> EmptyString ->
  run_py load_dotenv platform "__main__" os_environ t =
    (Return tt,
     t ++ (if String.eqb platform "win32" then [SetEventLoopPolicy] else [])
       ++ [ CreateApp "ContextMAN Core API" "1.2.0";
            CreateClient key;
            Print "Starting ContextMAN server with custom runner...";
            Listen "127.0.0.1" 8000 ]).
Proof.
  intros H Hne. rewrite run_py_run, H.
  destruct key as [|c key]; [congruence|].
  unfold startup_prelude. simpl. now rewrite <- app_assoc.
Qed.

Lemma run_py_main_events_witness :
  snd (run_py no_dotenv "win32" "__main__" {[ "GROQ_API_KEY" := "gsk_test" ]} [])
  = [ SetEventLoopPolicy;
      CreateApp "ContextMAN Core API" "1.2.0";
      CreateClient "gsk_test";
      Print "Starting ContextMAN server with custom runner...";
      Listen "127.0.0.1" 8000 ].
Proof.
  rewrite (run_py_main_events no_dotenv "win32" {[ "GROQ_API_KEY" := "gsk_test" ]}
             [] "gsk_test"); [reflexivity | vm_compute; reflexivity | discriminate].
Defined.

(** X11.  When [run.py] is imported rather than run as a script, it
    never starts a listener and prints nothing, whatever the environment
    holds. *)
Theorem run_py_imported_never_listens
    load_dotenv platform name os_environ t :
  name <> "__main__" ->
  (forall host port,
     Listen host port ∈ snd (run_py load_dotenv platform name os_environ t) ->
     Listen host port ∈ t) /\
  printed (snd (run_py load_dotenv platform name os_environ t)) = printed t.
Proof.
  intros Hn. apply String.eqb_neq in Hn.
  rewrite run_py_run, Hn. unfold startup_prelude.
  destruct (String.eqb platform "win32");
    destruct (load_dotenv os_environ !! "GROQ_API_KEY") as [[|c key]|]; simpl;
    (split;
     [ intros host port Hin;
       repeat (apply elem_of_app in Hin as [Hin|Hin]); try assumption;
       apply list_elem_of_In in Hin; simpl in Hin;
       repeat (destruct Hin as [Hin|Hin]; try discriminate); destruct Hin
     | unfold printed; rewrite omap_app; simpl; now rewrite app_nil_r ]).
Qed.

Lemma run_py_imported_never_listens_witness :
  Listen "127.0.0.1" 8000
    ∉ snd (run_py no_dotenv "linux" "run" {[ "GROQ_API_KEY" := "gsk_test" ]} []).
Proof.
  intros Hin.
  apply (proj1 (run_py_imported_never_listens no_dotenv "linux" "run"
                  {[ "GROQ_API_KEY" := "gsk_test" ]} [] ltac:(discriminate)))
    in Hin.
  inversion Hin.
Defined.

(** X12.  The event-loop policy is set on Windows and nowhere else, and
    when it is set it is the first thing [run.py] does, ahead of creating
    the application. *)
Theorem event_loop_policy_only_on_windows
    load_dotenv platform name os_environ :
  (SetEventLoopPolicy ∈ snd (run_py load_dotenv platform name os_environ [])
   <-> platform = "win32") /\
  (platform = "win32" ->
   exists later,
     snd (run_py load_dotenv platform name os_environ []) =
       SetEventLoopPolicy :: CreateApp "ContextMAN Core API" "1.2.0" :: later).
Proof.
  rewrite run_py_run. unfold startup_prelude.
  destruct (String.eqb platform "win32") eqn:Hp.
  - apply String.eqb_eq in Hp.
    destruct (load_dotenv os_environ !! "GROQ_API_KEY") as [[|c key]|]; simpl;
      (split; [split; [intros _; exact Hp | intros _; apply list_elem_of_here]
              | intros _; now eexists]).
  - apply String.eqb_neq in Hp.
    assert (Hnot : forall l : list event,
              SetEventLoopPolicy ∈ l ->
              Forall (fun e => e <> SetEventLoopPolicy) l -> False).
    { intros l Hin Hall. rewrite Forall_forall in Hall.
      exact (Hall _ Hin eq_refl). }
    destruct (load_dotenv os_environ !! "GROQ_API_KEY") as [[|c key]|]; simpl;
      (split; [split; [|congruence] | congruence]); intros Hin; exfalso;
      apply (Hnot _ Hin);
      try destruct (String.eqb name "__main__");
      repeat constructor; discriminate.
Qed.

Lemma event_loop_policy_only_on_windows_witness :
  SetEventLoopPolicy
    ∈ snd (run_py no_dotenv "win32" "__main__" (∅ : gmap string string) []).
Proof.
  apply (proj1 (event_loop_policy_only_on_windows no_dotenv "win32" "__main__" ∅)).
  reflexivity.
Defined.

(* ===================================================================== *)
(** ** Further properties of the prompt and of the credential *)

(** X13.  The user message does not escape what it interpolates: text
    that follows a copy of the context heading inside [purpose] reads
    exactly as if it had been sent as [parsed_context], so two different
    requests assemble to the same message. *)
Theorem user_message_heading_forgeable (a b c : string) (code : option string) :
  let r1 := {| purpose := a +:+ context_heading +:+ b;
               parsed_context := c; user_code := code |} in
  let r2 := {| purpose := a;
               parsed_context := b +:+ context_heading +:+ c;
               user_code := code |} in
  r1 <> r2 /\
  user_message r1 = user_message r2 /\
  synthesis_request r1 = synthesis_request r2.
Proof.
  cbv zeta.
  assert (Hm : user_message {| purpose := a +:+ context_heading +:+ b;
                               parsed_context := c; user_code := code |} =
               user_message {| purpose := a;
                               parsed_context := b +:+ context_heading +:+ c;
                               user_code := code |}).
  { unfold user_message, user_code_section, context_heading, fstring.
    cbn [purpose parsed_context user_code].
    rewrite !append_assoc. reflexivity. }
  split; [|split].
  - intros [= H _]. apply (f_equal String.length) in H.
    rewrite !string_length_append in H. unfold context_heading in H.
    simpl in H. lia.
  - exact Hm.
  - unfold synthesis_request. now rewrite Hm.
Qed.

Lemma import_then_parse_run load_dotenv str ext os_environ request t :
  import_then_parse load_dotenv str ext os_environ request t =
  match load_dotenv os_environ !! "GROQ_API_KEY" with
  | Some (String c key) =>
      parse_url (String c key) str ext request
        (t ++ [ CreateApp "ContextMAN Core API" "1.2.0";
                CreateClient (String c key) ])
  | _ => (Raise (ValueError missing_key_message),
          t ++ [CreateApp "ContextMAN Core API" "1.2.0"])
  end.
Proof.
  unfold import_then_parse, main_module, bind, emit, raise, ret.
  destruct (load_dotenv os_environ !! "GROQ_API_KEY") as [[|c key]|]; simpl;
    rewrite <- ?app_assoc; reflexivity.
Qed.

(** X14.  The credential the browsing agent is given is the one module
    initialisation read from the environment, and the same one the chat
    client was created with; without a usable credential no agent is
    ever run. *)
Theorem credential_reaches_agent load_dotenv str ext os_environ request :
  (forall key,
     load_dotenv os_environ !! "GROQ_API_KEY" = Some key ->
     key <> EmptyString ->
     CreateClient key
       ∈ snd (import_then_parse load_dotenv str ext os_environ request []) /\
     map (fun a => llm_api_key (llm a))
         (agent_calls
            (snd (import_then_parse load_dotenv str ext os_environ request [])))
       = [key]) /\
  (fst (main_module load_dotenv os_environ []) =
     Raise (ValueError missing_key_message) ->
   agent_calls
     (snd (import_then_parse load_dotenv str ext os_environ request [])) = []).
Proof.
  rewrite import_then_parse_run. split.
  - intros key H Hne. rewrite H. destruct key as [|c key]; [congruence|].
    rewrite app_nil_l. split.
    + rewrite parse_url_events. simpl. apply list_elem_of_In. simpl. auto.
    + rewrite parse_url_events. unfold agent_calls. rewrite !omap_app.
      fold (agent_calls (map Print (parse_url_closing_lines str
              (agent_run ext (parse_agent (String c key) request))))).
      rewrite agent_calls_prints. reflexivity.
  - unfold main_module, bind, emit, raise, ret. simpl.
    destruct (load_dotenv os_environ !! "GROQ_API_KEY") as [[|c key]|]; simpl;
      try reflexivity.
    discriminate.
Qed.

Lemma credential_reaches_agent_witness :
  map (fun a => llm_api_key (llm a))
      (agent_calls
         (snd (import_then_parse no_dotenv starlette_str
                 (stub (Return (VStr "Hello")) no_completion)
                 {[ "GROQ_API_KEY" := "gsk_test" ]} example_parse_request [])))
  = ["gsk_test"].
Proof.
  apply (proj1 (credential_reaches_agent no_dotenv starlette_str
                  (stub (Return (VStr "Hello")) no_completion)
                  {[ "GROQ_API_KEY" := "gsk_test" ]} example_parse_request)
           "gsk_test"); [vm_compute; reflexivity | discriminate].
Defined.

(** X15.  An omitted [user_code] and an empty one cannot be told apart
    downstream: two requests that differ only in that way send the same
    chat-completion request. *)
Theorem synthesis_request_same_for_null_and_empty (p c : string) :
  synthesis_request {| purpose := p; parsed_context := c; user_code := None |} =
  synthesis_request {| purpose := p; parsed_context := c;
                       user_code := Some EmptyString |} /\
  (forall code, code <> EmptyString ->
     synthesis_request {| purpose := p; parsed_context := c;
                          user_code := Some code |} <>
     synthesis_request {| purpose := p; parsed_context := c;
                          user_code := None |}).
Proof.
  split; [reflexivity|].
  intros [|x code] Hne; [congruence|].
  assert (Hm : forall r, user_message r =
            ("Here is the information to synthesize:" +:+ nl +:+ nl
               +:+ "**User's Goal:**" +:+ nl +:+ purpose r +:+ nl +:+ nl
               +:+ "**Messy Context / Chat History:**" +:+ nl
               +:+ parsed_context r +:+ nl +:+ nl
               +:+ "**User's Code (if any):**" +:+ nl)
            +:+ user_code_section r +:+ nl).
  { intros r. unfold user_message, fstring.
    rewrite append_empty_r, !append_assoc. reflexivity. }
  intros H.
  apply (f_equal (fun q => option_map content (messages q !! 1%nat))) in H.
  change (Some (user_message {| purpose := p; parsed_context := c;
                                user_code := Some (String x code) |}) =
          Some (user_message {| purpose := p; parsed_context := c;
                                user_code := None |})) in H.
  rewrite !Hm in H. injection H as H.
  apply append_cancel_l in H. discriminate H.
Qed.

Lemma synthesis_request_same_for_null_and_empty_witness :
  synthesis_request example_synthesize_request <>
  synthesis_request {| purpose := "summarize"; parsed_context := "...";
                       user_code := None |}.
Proof.
  apply (proj2 (synthesis_request_same_for_null_and_empty "summarize" "...")
           "print(1)").
  discriminate.
Defined.
